(** * The menu hook of ariakit: [useMenu] and the [Menu] component

    Shallow embedding of [packages/ariakit/src/menu/menu.ts].

    JavaScript objects are finite maps from property names to values
    ([gmap string Value]); object spread is map union, later properties
    winning.  Rendering and event handling are state-passing computations
    that may complete normally or throw a host exception.  Everything the
    module imports from other files ([useMenuList], [useHovercard],
    [createHook], [createComponent], [createElement], [hasFocusWithin],
    [useEventCallback], [useBooleanEventCallback]) is a field of the
    class [Imports]: the theorems hold for every implementation of them, and
    where a theorem needs something of one of them it says so in a
    hypothesis. *)

From stdpp Require Import gmap strings.

Open Scope string_scope.
Set Warnings "-register-all".

(** ** Synthetic events *)

(** The part of a React synthetic event that [menu.ts] reads or writes.  The
    mouse event given to [hideOnHoverOutside] is only handed on; it is an
    event whose key is empty. *)
Record Event := {
  key : string;
  defaultPrevented : bool;
  propagationStopped : bool;
}.

(** [event.stopPropagation()] *)
Definition stopPropagationOf (e : Event) : Event :=
  {| key := key e;
     defaultPrevented := defaultPrevented e;
     propagationStopped := true |}.

(** A React ref object, known by its identity; its [current] field lives in
    the mutable world. *)
Definition Ref := nat.

(** An item of the composite state, as far as the hook looks at it. *)
Module Item.
Record t := { id : string; ref : Ref }.
End Item.

(** [state.initialFocus] is ["container" | "first" | "last"]. *)
Inductive InitialFocus :=
| FocusContainer
| FocusFirst
| FocusLast.

(** ** The host runtime *)

(** [World] is everything mutable outside an event object (stores, refs, the
    DOM focus); [Exn] the values a JavaScript [throw] can carry; [Element] a
    DOM element; [MenuBarState] the store a menu bar puts in
    [MenuBarContext]; [ReactElement] and [Component] what [createElement]
    and [createComponent] return. *)
Class Host := {
  World : Type;
  Exn : Type;
  Element : Type;
  MenuBarState : Type;
  ReactElement : Type;
  Component : Type;
}.

Section Model.

Context {host : Host}.

(** ** Computations *)

(** How a call ends. *)
Inductive Completion (A : Type) :=
| Normal (a : A)
| Throw (x : Exn).
Arguments Normal {A} a.
Arguments Throw {A} x.

(** A computation over a mutable state [S]; the state reached is returned
    also when the computation throws. *)
Definition Eff (S A : Type) : Type := S -> Completion A * S.

Definition ret {S A} (a : A) : Eff S A := fun s => (Normal a, s).

Definition bind {S A B} (m : Eff S A) (k : A -> Eff S B) : Eff S B :=
  fun s =>
    match m s with
    | (Normal a, s') => k a s'
    | (Throw x, s') => (Throw x, s')
    end.

(** An event handler runs on the event it is given and on the world. *)
Definition HState : Type := Event * World.

Definition getEvent : Eff HState Event := fun s => (Normal (fst s), s).

Definition getWorld : Eff HState World := fun s => (Normal (snd s), s).

Definition stopPropagation : Eff HState unit :=
  fun s => (Normal tt, (stopPropagationOf (fst s), snd s)).

(** A call that is not given the event runs on the world alone. *)
Definition liftW {A} (m : Eff World A) : Eff HState A :=
  fun s => let (r, w) := m (snd s) in (r, (fst s, w)).

(** ** Values and objects *)

(** The menu state object, as far as [menu.ts] uses it.  [hide] and
    [setActiveId] write to the stores; [first()] and [last()] only read the
    items the state was built from, and return [string | null | undefined]:
    [None] stands for the two nullish results. *)
Record MenuState := {
  hide : Eff World unit;
  setActiveId : option string -> Eff World unit;
  initialFocus : InitialFocus;
  first : unit -> option string;
  last : unit -> option string;
  items : list Item.t;
  baseRef : Ref;
  disclosureRef : Ref;
  autoFocusOnShow : bool;
}.

Inductive Value :=
| VUndefined
| VNull
| VBool (b : bool)
| VStr (s : string)
| VRef (r : Ref)
| VState (s : MenuState)
| VFun (f : Eff HState Value).

(** A function value called with an event. *)
Definition Callback : Type := Eff HState Value.

(** [o.k], [undefined] when the property is missing. *)
Definition prop (o : gmap string Value) (k : string) : Value :=
  default VUndefined (o !! k).

(** A destructuring default, [k = d]: used when the property is
    [undefined]. *)
Definition withDefault (v d : Value) : Value :=
  match v with
  | VUndefined => d
  | _ => v
  end.

(** JavaScript truthiness, as [if (v)] and [!v] use it. *)
Definition truthy (v : Value) : bool :=
  match v with
  | VUndefined | VNull => false
  | VBool b => b
  | VStr s => negb (String.eqb s "")
  | VRef _ | VState _ | VFun _ => true
  end.

(** [v != null] *)
Definition notNullish (v : Value) : bool :=
  match v with
  | VUndefined | VNull => false
  | _ => true
  end.

(** [!!x] on a store or [undefined]. *)
Definition toBoolean {A} (x : option A) : bool :=
  match x with
  | Some _ => true
  | None => false
  end.

(** ** The ambient contexts *)

Record Ambient := {
  MenuContext : option MenuState;
  MenuBarContext : option MenuBarState;
}.

(** The argument of [useMenu].  [MenuOptions] requires [state] to be a menu
    state, so it is kept apart, typed; [options] is the object with all the
    other properties. *)
Record MenuOptions := {
  state : MenuState;
  options : gmap string Value;
}.

(** A hook is called in an ambient context, on its argument, and returns a
    props object. *)
Definition Hook (I : Type) : Type :=
  Ambient -> I -> Eff World (gmap string Value).

End Model.

Arguments Normal {host A} a.
Arguments Throw {host A} x.

Notation "x <- m ;; k" := (bind m (fun x => k))
  (at level 100, m at next level, right associativity).
Notation "m ;;; k" := (bind m (fun _ => k))
  (at level 100, right associativity).

(** ** What the module imports from the rest of the repository *)

Class Imports {host : Host} := {
  useMenuList : Hook (gmap string Value);
  useHovercard : Hook (gmap string Value);
  createHook : Hook MenuOptions -> Hook MenuOptions;
  createElement : string -> gmap string Value -> ReactElement;
  createComponent :
    (Ambient -> MenuOptions -> Eff World ReactElement) -> Component;
  useEventCallback : Value -> Callback;
  useBooleanEventCallback : Value -> Callback;
  hasFocusWithin : Element -> World -> bool;
  (** [ref.current], [None] when it is [null]. *)
  current : Ref -> World -> option Element;
}.

Section Menu.

Context {host : Host} {imports : Imports}.

(** Modelled from the spec: [useStore] of ariakit-utils/store is not under
    src/.  The spec has each widget module "read ambient context for
    composition with parent widgets": [useStore(Context, [])] gives the store
    the nearest provider of the context holds, [undefined] without one. *)
Definition useStore {S} (context : Ambient -> option S) (amb : Ambient)
  : option S := context amb.

(** React's [useCallback] and [useMemo]: the dependency lists of [menu.ts]
    name everything the callbacks read, so the memoized value is the value
    computed now. *)
Definition useCallback {A} (f : A) : A := f.
Definition useMemo {A} (f : unit -> A) : A := f tt.

(** ** useMenu *)

(** [!!parentMenu] *)
Definition hasParentMenu (amb : Ambient) : bool :=
  let parentMenu := useStore MenuContext amb in
  toBoolean parentMenu.

(** [!!parentMenuBar && !hasParentMenu] *)
Definition parentIsMenuBar (amb : Ambient) : bool :=
  let parentMenuBar := useStore MenuBarContext amb in
  toBoolean parentMenuBar && negb (hasParentMenu amb).

(** The destructured options. *)
Definition hideOnEscapeOf (o : MenuOptions) : Value :=
  withDefault (prop (options o) "hideOnEscape") (VBool true).

Definition autoFocusOnShowOf (o : MenuOptions) : Value :=
  withDefault (prop (options o) "autoFocusOnShow") (VBool true).

Definition hideOnHoverOutsideOf (o : MenuOptions) : Value :=
  prop (options o) "hideOnHoverOutside".

(** [...props]: what is left of the options object. *)
Definition restProps (o : MenuOptions) : gmap string Value :=
  delete "state"
    (delete "hideOnEscape"
       (delete "autoFocusOnShow"
          (delete "hideOnHoverOutside" (options o)))).

Definition onKeyDownProp (o : MenuOptions) : Callback :=
  useEventCallback (prop (restProps o) "onKeyDown").

Definition hideOnEscapeProp (o : MenuOptions) : Callback :=
  useBooleanEventCallback (hideOnEscapeOf o).

(** The keydown handler, lines 46-61. *)
Definition onKeyDown (amb : Ambient) (o : MenuOptions) : Callback :=
  useCallback (
    onKeyDownProp o ;;;
    event <- getEvent ;;
    if defaultPrevented event then ret VUndefined
    else if String.eqb (key event) "Escape" then
      h <- hideOnEscapeProp o ;;
      if negb (truthy h) then ret VUndefined
      else
        (if negb (hasParentMenu amb) then stopPropagation else ret tt) ;;;
        liftW (hide (state o)) ;;;
        ret VUndefined
    else ret VUndefined).

(** The object given to [useMenuList], lines 63-71:
    [{ state, ...{ ...props, onKeyDown } }]. *)
Definition menuListProps (amb : Ambient) (o : MenuOptions)
  : gmap string Value :=
  <["onKeyDown" := VFun (onKeyDown amb o)]> (restProps o)
    ∪ {[ "state" := VState (state o) ]}.

(** [state.items.find((item) => item.id === id)?.ref] *)
Definition findItemRef (st : MenuState) (id : string) : Value :=
  match List.find (fun item => String.eqb (Item.id item) id) (items st) with
  | Some item => VRef (Item.ref item)
  | None => VUndefined
  end.

(** [if (id) { return ...find...?.ref } break], then [return state.baseRef]:
    the empty string is falsy as [null] and [undefined] are. *)
Definition refOfId (st : MenuState) (id : option string) : Value :=
  match id with
  | Some id =>
      if negb (String.eqb id "") then findItemRef st id
      else VRef (baseRef st)
  | None => VRef (baseRef st)
  end.

(** The memoized initial focus target, lines 73-100. *)
Definition initialFocusRef (st : MenuState) : Value :=
  useMemo (fun _ =>
    match initialFocus st with
    | FocusFirst => refOfId st (first st tt)
    | FocusLast => refOfId st (last st tt)
    | FocusContainer => VRef (baseRef st)
    end).

(** The [hideOnHoverOutside] callback given to [useHovercard],
    lines 107-121. *)
Definition hideOnHoverOutside (amb : Ambient) (o : MenuOptions) : Callback :=
  match hideOnHoverOutsideOf o with
  | VFun f => f
  | v =>
      if notNullish v then ret v
      else
        match useStore MenuContext amb with
        | Some parentMenu =>
            liftW (setActiveId parentMenu None) ;;;
            ret (VBool true)
        | None =>
            if negb (parentIsMenuBar amb) then ret (VBool false)
            else
              w <- getWorld ;;
              match current (disclosureRef (state o)) w with
              | None => ret (VBool true)
              | Some disclosure =>
                  if hasFocusWithin disclosure w then ret (VBool false)
                  else ret (VBool true)
              end
        end
  end.

(** [state.autoFocusOnShow && autoFocusOnShow] *)
Definition autoFocusOnShowArg (o : MenuOptions) : Value :=
  if autoFocusOnShow (state o) then autoFocusOnShowOf o else VBool false.

(** The object given to [useHovercard], lines 102-130; [props] is what
    [useMenuList] returned. *)
Definition hovercardProps (amb : Ambient) (o : MenuOptions)
    (props : gmap string Value) : gmap string Value :=
  <["hideOnEscape" :=
      if hasParentMenu amb then VBool false else hideOnEscapeOf o]>
  (<["backdrop" :=
      if hasParentMenu amb then VBool false else prop props "backdrop"]>
  (<["modal" :=
      if hasParentMenu amb then VBool false else prop props "modal"]>
  (<["hideOnHoverOutside" := VFun (hideOnHoverOutside amb o)]>
  (props
     ∪ <["initialFocusRef" := initialFocusRef (state o)]>
       (<["autoFocusOnShow" := autoFocusOnShowArg o]>
        {[ "state" := VState (state o) ]}))))).

(** The function given to [createHook], lines 31-133. *)
Definition useMenuProps : Hook MenuOptions :=
  fun amb o =>
    props <- useMenuList amb (menuListProps amb o) ;;
    props <- useHovercard amb (hovercardProps amb o props) ;;
    ret props.

Definition useMenu : Hook MenuOptions := createHook useMenuProps.

(** ** Menu *)

(** The render function given to [createComponent], lines 149-152. *)
Definition MenuRender (amb : Ambient) (props : MenuOptions)
  : Eff World ReactElement :=
  htmlProps <- useMenu amb props ;;
  ret (createElement "div" htmlProps).

Definition Menu : Component := createComponent MenuRender.

End Menu.

(** * A concrete page

    One host and one set of imports on which the definitions can be run: the
    world is the open flag of the menu, the active item of the parent menu
    and the state of the disclosure button; the two delegate hooks hand on
    the props they are given, without the state. *)

Record Page := {
  menuOpen : bool;
  parentActiveId : option string;
  disclosureMounted : bool;
  focusInDisclosure : bool;
}.

Definition pageHost : Host := {|
  World := Page;
  Exn := string;
  Element := Ref;
  MenuBarState := unit;
  ReactElement := string * nat;
  Component := unit;
|}.

Section PageModel.

#[local] Existing Instance pageHost.

(** Imports over a given popover hook. *)
Definition pageImportsWith (hovercard : Hook (gmap string Value))
  : Imports := {|
  useMenuList := fun _ props w => (Normal (delete "state" props), w);
  useHovercard := hovercard;
  createHook := fun useProps => useProps;
  createElement := fun type props => (type, size props);
  createComponent := fun _ => tt;
  useEventCallback := fun callback =>
    match callback with
    | VFun f => f
    | _ => ret VUndefined
    end;
  useBooleanEventCallback := fun booleanOrCallback =>
    match booleanOrCallback with
    | VFun f => f
    | v => ret v
    end;
  hasFocusWithin := fun _ w => focusInDisclosure w;
  current := fun r w => if disclosureMounted w then Some r else None;
|}.

Definition pageImports : Imports :=
  pageImportsWith (fun _ props w => (Normal (delete "state" props), w)).

(** The same imports, with a popover hook that throws. *)
Definition throwingImports : Imports :=
  pageImportsWith (fun _ _ w => (Throw "Invalid hook call", w)).

Definition closeMenu (w : Page) : Page :=
  {| menuOpen := false;
     parentActiveId := parentActiveId w;
     disclosureMounted := disclosureMounted w;
     focusInDisclosure := focusInDisclosure w |}.

Definition activate (id : option string) (w : Page) : Page :=
  {| menuOpen := menuOpen w;
     parentActiveId := id;
     disclosureMounted := disclosureMounted w;
     focusInDisclosure := focusInDisclosure w |}.

Definition pageState (focus : InitialFocus) (items : list Item.t)
  : MenuState := {|
  hide := fun w => (Normal tt, closeMenu w);
  setActiveId := fun id w => (Normal tt, activate id w);
  initialFocus := focus;
  first := fun _ => Some "undo";
  last := fun _ => Some "redo";
  items := items;
  baseRef := 10;
  disclosureRef := 11;
  autoFocusOnShow := true;
|}.

Definition editItems : list Item.t :=
  [ {| Item.id := "undo"; Item.ref := 1 |};
    {| Item.id := "redo"; Item.ref := 2 |} ].

(** A caller handler that calls [event.preventDefault()]. *)
Definition preventDefault : Callback :=
  fun s =>
    (Normal VUndefined,
     ({| key := key (fst s);
         defaultPrevented := true;
         propagationStopped := propagationStopped (fst s) |}, snd s)).

Definition escape : Event :=
  {| key := "Escape"; defaultPrevented := false; propagationStopped := false |}.

(** The mouse event of a hover outside; it has no key. *)
Definition mouseMove : Event :=
  {| key := ""; defaultPrevented := false; propagationStopped := false |}.

Definition openPage : Page :=
  {| menuOpen := true;
     parentActiveId := Some "edit";
     disclosureMounted := true;
     focusInDisclosure := false |}.

Definition topLevel : Ambient :=
  {| MenuContext := None; MenuBarContext := None |}.

Definition inMenuBar : Ambient :=
  {| MenuContext := None; MenuBarContext := Some tt |}.

Definition inSubmenu : Ambient :=
  {| MenuContext := Some (pageState FocusContainer []);
     MenuBarContext := Some tt |}.

Definition modalMenu : MenuOptions :=
  {| state := pageState FocusFirst editItems;
     options := {[ "modal" := VBool true; "backdrop" := VBool true ]} |}.

Definition guardedMenu : MenuOptions :=
  {| state := pageState FocusFirst editItems;
     options := {[ "onKeyDown" := VFun preventDefault ]} |}.

Definition plainMenu : MenuOptions :=
  {| state := pageState FocusFirst editItems; options := ∅ |}.

Definition stoppedEscape : Event :=
  {| key := "Escape"; defaultPrevented := false; propagationStopped := true |}.

Definition preventedEscape : Event :=
  {| key := "Escape"; defaultPrevented := true; propagationStopped := false |}.

(** A state whose [first()] names an item that [items] does not hold. *)
Definition staleState : MenuState := pageState FocusFirst [].

End PageModel.

(** * Properties *)

Section MenuFacts.

Context {host : Host} {imports : Imports}.

(** ** Running computations *)

Lemma bind_run {S A B} (m : Eff S A) (k : A -> Eff S B) (s : S) :
  bind m k s =
    match m s with
    | (Normal a, s') => k a s'
    | (Throw x, s') => (Throw x, s')
    end.
Proof. reflexivity. Qed.

Lemma bind_ret_r {S A} (m : Eff S A) (s : S) : bind m ret s = m s.
Proof. rewrite bind_run. by destruct (m s) as [[a|x] s']. Qed.

Lemma liftW_run {A} (m : Eff World A) (s : HState) :
  liftW m s = ((m (snd s)).1, (fst s, (m (snd s)).2)).
Proof. unfold liftW. by destruct (m (snd s)). Qed.

(** ** Objects *)

Lemma restProps_lookup (o : MenuOptions) (k : string) :
  k ≠ "state" -> k ≠ "hideOnEscape" -> k ≠ "autoFocusOnShow" ->
  k ≠ "hideOnHoverOutside" ->
  restProps o !! k = options o !! k.
Proof.
  intros. unfold restProps.
  by rewrite !lookup_delete_ne.
Qed.

Lemma menuListProps_onKeyDown (amb : Ambient) (o : MenuOptions) :
  menuListProps amb o !! "onKeyDown" = Some (VFun (onKeyDown amb o)).
Proof.
  unfold menuListProps.
  apply lookup_union_Some_l, lookup_insert_eq.
Qed.

Lemma useMenuProps_run (amb : Ambient) (o : MenuOptions) (w : World) :
  useMenuProps amb o w =
    match useMenuList amb (menuListProps amb o) w with
    | (Normal props, w1) => useHovercard amb (hovercardProps amb o props) w1
    | (Throw x, w1) => (Throw x, w1)
    end.
Proof.
  unfold useMenuProps. rewrite bind_run.
  destruct (useMenuList amb (menuListProps amb o) w) as [[props|x] w1];
    [apply bind_ret_r | reflexivity].
Qed.

(** ** The keydown handler *)

(** What [onKeyDown] does once the caller's handler has returned, from the
    state that handler left. *)
Lemma onKeyDown_run (amb : Ambient) (o : MenuOptions) (s : HState) :
  onKeyDown amb o s =
    match onKeyDownProp o s with
    | (Normal _, s1) =>
        if defaultPrevented (fst s1) then (Normal VUndefined, s1)
        else if String.eqb (key (fst s1)) "Escape" then
          match hideOnEscapeProp o s1 with
          | (Normal h, s2) =>
              if negb (truthy h) then (Normal VUndefined, s2)
              else
                let s3 :=
                  if negb (hasParentMenu amb)
                  then (stopPropagationOf (fst s2), snd s2) else s2 in
                match hide (state o) (snd s3) with
                | (Normal _, w) => (Normal VUndefined, (fst s3, w))
                | (Throw x, w) => (Throw x, (fst s3, w))
                end
          | (Throw x, s2) => (Throw x, s2)
          end
        else (Normal VUndefined, s1)
    | (Throw x, s1) => (Throw x, s1)
    end.
Proof.
  unfold onKeyDown, useCallback. rewrite bind_run.
  destruct (onKeyDownProp o s) as [[v|x] s1]; [|reflexivity].
  rewrite bind_run. unfold getEvent at 1. cbn [fst snd].
  destruct (defaultPrevented (fst s1)); [reflexivity|].
  destruct (String.eqb (key (fst s1)) "Escape"); [|reflexivity].
  rewrite bind_run.
  destruct (hideOnEscapeProp o s1) as [[h|x] s2]; [|reflexivity].
  destruct (negb (truthy h)); [reflexivity|].
  rewrite bind_run.
  destruct (negb (hasParentMenu amb)); cbn [stopPropagation ret].
  - rewrite bind_run, liftW_run. cbn [fst snd].
    by destruct (hide (state o) (snd s2)) as [[u|x] w].
  - rewrite bind_run, liftW_run. cbn [fst snd].
    destruct s2 as [e2 w2]; cbn [fst snd].
    by destruct (hide (state o) w2) as [[u|x] w].
Qed.

(** C1: when the props given to useMenu define onKeyDown, the keydown
    handler useMenu installs calls the caller's handler first: everything
    else it does starts from the state that call leaves, and an exception of
    the caller's handler ends it.  If the event is default-prevented after
    the call, the handler returns at once in that very state: the
    hideOnEscape option is not evaluated, stopPropagation is not called and
    the menu is not hidden. *)
Theorem onKeyDown_calls_caller_first
    (amb : Ambient) (o : MenuOptions) (f : Callback) :
  prop (options o) "onKeyDown" = VFun f ->
  (forall s, useEventCallback (VFun f) s = f s) ->
  menuListProps amb o !! "onKeyDown" = Some (VFun (onKeyDown amb o)) /\
  exists internal : Callback,
    forall s,
      onKeyDown amb o s =
        match f s with
        | (Normal _, s1) =>
            if defaultPrevented (fst s1) then (Normal VUndefined, s1)
            else internal s1
        | (Throw x, s1) => (Throw x, s1)
        end.
Proof.
  intros Hprop Hcall. split; [apply menuListProps_onKeyDown|].
  assert (Hrest : onKeyDownProp o = useEventCallback (VFun f)).
  { unfold onKeyDownProp, prop in *.
    rewrite restProps_lookup by done. by rewrite Hprop. }
  eexists (fun s1 =>
    if String.eqb (key (fst s1)) "Escape" then _ else (Normal VUndefined, s1)).
  intros s. rewrite onKeyDown_run, Hrest, Hcall.
  destruct (f s) as [[v|x] s1]; reflexivity.
Qed.

(** C3: on an Escape keydown that the caller's handler returned from without
    preventing the default, and for which the hideOnEscape option (true when
    the caller gave none) evaluates to a true value, the handler calls
    state.hide(), on the event with its propagation stopped when there is no
    parent menu context and on the event as it is when there is one. *)
Theorem onKeyDown_escape_hides
    (amb : Ambient) (o : MenuOptions) (s s1 s2 : HState) (v h : Value) :
  onKeyDownProp o s = (Normal v, s1) ->
  defaultPrevented (fst s1) = false ->
  key (fst s1) = "Escape" ->
  hideOnEscapeProp o s1 = (Normal h, s2) ->
  truthy h = true ->
  (prop (options o) "hideOnEscape" = VUndefined ->
     hideOnEscapeProp o = useBooleanEventCallback (VBool true)) /\
  onKeyDown amb o s =
    let event :=
      match MenuContext amb with
      | None => stopPropagationOf (fst s2)
      | Some _ => fst s2
      end in
    match hide (state o) (snd s2) with
    | (Normal _, w) => (Normal VUndefined, (event, w))
    | (Throw x, w) => (Throw x, (event, w))
    end.
Proof.
  intros Hcaller Hdefault Hkey Hoption Htrue. split.
  { intros Hundef. unfold hideOnEscapeProp, hideOnEscapeOf.
    by rewrite Hundef. }
  rewrite onKeyDown_run, Hcaller, Hdefault, Hkey, Hoption, Htrue.
  cbn [negb String.eqb Ascii.eqb Bool.eqb].
  unfold hasParentMenu, useStore.
  destruct (MenuContext amb) as [parentMenu|]; cbn [toBoolean negb fst snd].
  - by destruct s2.
  - reflexivity.
Qed.

(** ** Delegation *)

(** C2: useMenu is createHook of a function that first gives the caller's
    props, with the merged onKeyDown installed and the state put back, to
    useMenuList, and then gives what useMenuList returned, with the
    hovercard options set, to useHovercard; what useHovercard returns is
    what it returns.  When useMenuList throws, useHovercard is not called. *)
Theorem useMenu_delegation_order
    (amb : Ambient) (o : MenuOptions) (w : World) :
  useMenu = createHook useMenuProps /\
  useMenuProps amb o w =
    match useMenuList amb (menuListProps amb o) w with
    | (Normal props, w1) => useHovercard amb (hovercardProps amb o props) w1
    | (Throw x, w1) => (Throw x, w1)
    end /\
  menuListProps amb o !! "onKeyDown" = Some (VFun (onKeyDown amb o)) /\
  menuListProps amb o !! "state" = Some (VState (state o)) /\
  (forall k : string,
     k ≠ "onKeyDown" -> k ≠ "state" -> k ≠ "hideOnEscape" ->
     k ≠ "autoFocusOnShow" -> k ≠ "hideOnHoverOutside" ->
     menuListProps amb o !! k = options o !! k) /\
  (forall (props : gmap string Value) (k : string) (v : Value),
     k ≠ "hideOnEscape" -> k ≠ "backdrop" -> k ≠ "modal" ->
     k ≠ "hideOnHoverOutside" ->
     props !! k = Some v ->
     hovercardProps amb o props !! k = Some v).
Proof.
  split; [reflexivity|]. split; [apply useMenuProps_run|].
  split; [apply menuListProps_onKeyDown|]. split; [|split].
  - unfold menuListProps. apply lookup_union_Some_raw. right. split.
    + rewrite lookup_insert_ne by done. apply lookup_delete_eq.
    + apply lookup_singleton_eq.
  - intros k Hk Hstate He Ha Hh. unfold menuListProps.
    rewrite lookup_union_l by (by rewrite lookup_singleton_ne).
    rewrite lookup_insert_ne by done.
    by apply restProps_lookup.
  - intros props k v He Hb Hm Hh Hk. unfold hovercardProps.
    rewrite !lookup_insert_ne by done.
    by apply lookup_union_Some_l.
Qed.

Lemma hovercardProps_modal (amb : Ambient) (o : MenuOptions)
    (props : gmap string Value) :
  hovercardProps amb o props !! "modal" =
    Some (if hasParentMenu amb then VBool false else prop props "modal").
Proof.
  unfold hovercardProps.
  rewrite !lookup_insert_ne by done. apply lookup_insert_eq.
Qed.

Lemma hovercardProps_backdrop (amb : Ambient) (o : MenuOptions)
    (props : gmap string Value) :
  hovercardProps amb o props !! "backdrop" =
    Some (if hasParentMenu amb then VBool false else prop props "backdrop").
Proof.
  unfold hovercardProps.
  rewrite !lookup_insert_ne by done. apply lookup_insert_eq.
Qed.

Lemma hovercardProps_hideOnEscape (amb : Ambient) (o : MenuOptions)
    (props : gmap string Value) :
  hovercardProps amb o props !! "hideOnEscape" =
    Some (if hasParentMenu amb then VBool false else hideOnEscapeOf o).
Proof. unfold hovercardProps. apply lookup_insert_eq. Qed.

Lemma hovercardProps_hideOnHoverOutside (amb : Ambient) (o : MenuOptions)
    (props : gmap string Value) :
  hovercardProps amb o props !! "hideOnHoverOutside" =
    Some (VFun (hideOnHoverOutside amb o)).
Proof.
  unfold hovercardProps.
  rewrite !lookup_insert_ne by done. apply lookup_insert_eq.
Qed.

(** C4: the object useMenu gives to useHovercard has modal, backdrop and
    hideOnEscape all false when a parent menu context is present, whatever
    the caller gave.  Without a parent menu context its modal and backdrop
    are those of the props useMenuList returned, which are the caller's when
    useMenuList hands these two on unchanged. *)
Theorem useHovercard_submenu_options
    (amb : Ambient) (o : MenuOptions) (w w1 : World)
    (props : gmap string Value) :
  useMenuList amb (menuListProps amb o) w = (Normal props, w1) ->
  prop props "modal" = prop (options o) "modal" ->
  prop props "backdrop" = prop (options o) "backdrop" ->
  let args := hovercardProps amb o props in
  useMenuProps amb o w = useHovercard amb args w1 /\
  (is_Some (MenuContext amb) ->
     args !! "modal" = Some (VBool false) /\
     args !! "backdrop" = Some (VBool false) /\
     args !! "hideOnEscape" = Some (VBool false)) /\
  (MenuContext amb = None ->
     args !! "modal" = Some (prop (options o) "modal") /\
     args !! "backdrop" = Some (prop (options o) "backdrop")).
Proof.
  intros Hlist Hmodal Hbackdrop args. subst args.
  rewrite hovercardProps_modal, hovercardProps_backdrop,
    hovercardProps_hideOnEscape, Hmodal, Hbackdrop.
  split; [by rewrite useMenuProps_run, Hlist|].
  unfold hasParentMenu, useStore. split.
  - intros [parentMenu ->]. done.
  - intros ->. done.
Qed.

(** ** The two modes *)

(** C5: hasParentMenu is true exactly when a parent menu context is present,
    parentIsMenuBar exactly when a menu bar context is present and no parent
    menu context is, and the two flags are never both true.  The contexts
    reach what useMenu builds through these two flags and the parent menu's
    store only: the keydown handler is the same for two ambient contexts
    with the same hasParentMenu, and the object given to useHovercard is the
    same for two with the same parent menu and the same parentIsMenuBar. *)
Theorem menu_modes_exclusive (amb : Ambient) :
  (hasParentMenu amb = true <-> is_Some (MenuContext amb)) /\
  (parentIsMenuBar amb = true <->
     is_Some (MenuBarContext amb) /\ MenuContext amb = None) /\
  ~ (hasParentMenu amb = true /\ parentIsMenuBar amb = true) /\
  (forall amb' o,
     hasParentMenu amb' = hasParentMenu amb ->
     onKeyDown amb' o = onKeyDown amb o) /\
  (forall amb' o props,
     MenuContext amb' = MenuContext amb ->
     parentIsMenuBar amb' = parentIsMenuBar amb ->
     hovercardProps amb' o props = hovercardProps amb o props).
Proof.
  split; [|split; [|split; [|split]]].
  - unfold hasParentMenu, useStore.
    destruct (MenuContext amb) as [parentMenu|]; cbn; split; eauto;
      try done; by intros [? ?].
  - unfold parentIsMenuBar, hasParentMenu, useStore.
    destruct (MenuContext amb) as [parentMenu|],
      (MenuBarContext amb) as [parentMenuBar|]; cbn; split; eauto;
      try done; try (by intros [_ ?]); by intros [[? ?] _].
  - unfold parentIsMenuBar.
    destruct (hasParentMenu amb); rewrite ?andb_false_r; by intros [? ?].
  - intros amb' o Hflag. unfold onKeyDown. by rewrite Hflag.
  - intros amb' o props Hmenu Hbar.
    assert (Hflag : hasParentMenu amb' = hasParentMenu amb)
      by (unfold hasParentMenu, useStore; by rewrite Hmenu).
    unfold hovercardProps, hideOnHoverOutside, useStore.
    by rewrite Hflag, Hmenu, Hbar.
Qed.

(** ** The component *)

(** C7: Menu is createComponent of a render function that calls useMenu on
    the props it is given and returns createElement("div", htmlProps) for
    the props object useMenu returned, in the world useMenu left. *)
Theorem Menu_renders_useMenu_props
    (amb : Ambient) (props : MenuOptions) (w : World) :
  Menu = createComponent MenuRender /\
  MenuRender amb props w =
    match useMenu amb props w with
    | (Normal htmlProps, w') => (Normal (createElement "div" htmlProps), w')
    | (Throw x, w') => (Throw x, w')
    end.
Proof.
  split; [reflexivity|].
  unfold MenuRender. rewrite bind_run.
  by destruct (useMenu amb props w) as [[htmlProps|x] w'].
Qed.

(** ** Hovering outside *)

(** C8: the hideOnHoverOutside callback given to useHovercard answers in a
    fixed order.  A function given by the caller is called and its result
    returned; any other value of the caller that is neither null nor
    undefined is returned as it is; otherwise, with a parent menu,
    parentMenu.setActiveId(null) is called and true returned; otherwise,
    when the parent is not a menu bar, false; otherwise true, unless the
    disclosure element is there and has the focus within it. *)
Theorem hideOnHoverOutside_precedence
    (amb : Ambient) (o : MenuOptions) (props : gmap string Value)
    (s : HState) :
  let given := prop (options o) "hideOnHoverOutside" in
  let callback := hideOnHoverOutside amb o in
  hovercardProps amb o props !! "hideOnHoverOutside" = Some (VFun callback) /\
  (forall f, given = VFun f -> callback s = f s) /\
  ((forall f, given ≠ VFun f) -> notNullish given = true ->
     callback s = (Normal given, s)) /\
  (notNullish given = false ->
     forall parentMenu, MenuContext amb = Some parentMenu ->
       callback s =
         match setActiveId parentMenu None (snd s) with
         | (Normal _, w) => (Normal (VBool true), (fst s, w))
         | (Throw x, w) => (Throw x, (fst s, w))
         end) /\
  (notNullish given = false -> MenuContext amb = None ->
     parentIsMenuBar amb = false ->
     callback s = (Normal (VBool false), s)) /\
  (notNullish given = false -> MenuContext amb = None ->
     parentIsMenuBar amb = true ->
     callback s =
       (Normal (VBool
          match current (disclosureRef (state o)) (snd s) with
          | Some disclosure => negb (hasFocusWithin disclosure (snd s))
          | None => true
          end), s)).
Proof.
  intros given callback. subst given callback.
  split; [apply hovercardProps_hideOnHoverOutside|].
  unfold hideOnHoverOutside, hideOnHoverOutsideOf, useStore.
  destruct (prop (options o) "hideOnHoverOutside") as [| |b|str|r|st|g];
    cbn [notNullish]; repeat split;
    try (intros; discriminate); try (intros; reflexivity);
    try (by intros f [= ->]); try (by intros Hf; destruct (Hf g)).
  all: try (intros _ parentMenu ->; rewrite bind_run, liftW_run;
            destruct s as [e w]; cbn [fst snd];
            by destruct (setActiveId parentMenu None w) as [[u|x] w']).
  all: try (intros _ -> ->; reflexivity).
  all: intros _ -> ->; cbn [negb]; rewrite bind_run;
    unfold getWorld; cbn [fst snd];
    destruct (current (disclosureRef (state o)) (snd s)) as [d|];
    [by destruct (hasFocusWithin d (snd s)) | reflexivity].
Qed.

(** ** What rendering leaves alone *)

Lemma onKeyDown_world (amb : Ambient) (o : MenuOptions) :
  (forall s, (onKeyDownProp o s).2.2 = s.2) ->
  (forall s, (hideOnEscapeProp o s).2.2 = s.2) ->
  forall s,
    (onKeyDown amb o s).2.2 = s.2 \/
    (onKeyDown amb o s).2.2 = (hide (state o) s.2).2.
Proof.
  intros Hcaller Hoption s. rewrite onKeyDown_run.
  specialize (Hcaller s).
  destruct (onKeyDownProp o s) as [[v|x] s1]; cbn [fst snd] in *; [|by left].
  destruct (defaultPrevented s1.1); [by left|].
  destruct (String.eqb (key s1.1) "Escape"); [|by left].
  specialize (Hoption s1).
  destruct (hideOnEscapeProp o s1) as [[h|x] s2]; cbn [fst snd] in *;
    [|left; congruence].
  destruct (negb (truthy h)); [left; cbn [fst snd]; congruence|].
  right.
  assert (Hw : s2.2 = s.2) by congruence.
  destruct (negb (hasParentMenu amb)); cbn [fst snd]; rewrite Hw;
    by destruct (hide (state o) s.2) as [[u|x] w].
Qed.

Lemma hideOnHoverOutside_world (amb : Ambient) (o : MenuOptions) :
  (forall f, prop (options o) "hideOnHoverOutside" ≠ VFun f) ->
  forall s,
    (hideOnHoverOutside amb o s).2.2 = s.2 \/
    exists parentMenu,
      MenuContext amb = Some parentMenu /\
      (hideOnHoverOutside amb o s).2.2 = (setActiveId parentMenu None s.2).2.
Proof.
  intros Hgiven s.
  unfold hideOnHoverOutside, hideOnHoverOutsideOf, useStore.
  destruct (prop (options o) "hideOnHoverOutside") as [| |b|str|r|st|g];
    cbn [notNullish]; try (by left); try (by destruct (Hgiven g)).
  all: destruct (MenuContext amb) as [parentMenu|];
    [ right; exists parentMenu; split; [done|];
      rewrite bind_run, liftW_run; cbn [fst snd];
      by destruct (setActiveId parentMenu None s.2) as [[u|x] w']
    | left; destruct (negb (parentIsMenuBar amb)); [done|];
      rewrite bind_run; unfold getWorld; cbn [fst snd];
      destruct (current (disclosureRef (state o)) s.2) as [d|]; [|done];
      by destruct (hasFocusWithin d s.2) ].
Qed.

(** C9: computing useMenu's props changes nothing in the world when the two
    hooks it delegates to change nothing: its own steps only read.  What
    the module does change, it changes in its handlers: the keydown handler
    leaves the world as it was or as state.hide() leaves it (the caller's
    callbacks apart), and the hideOnHoverOutside callback leaves it as it
    was or as parentMenu.setActiveId(null) leaves it. *)
Theorem useMenu_render_mutates_nothing
    (amb : Ambient) (o : MenuOptions) (w : World) :
  (forall props w0, (useMenuList amb props w0).2 = w0) ->
  (forall props w0, (useHovercard amb props w0).2 = w0) ->
  (useMenuProps amb o w).2 = w /\
  ((forall s, (onKeyDownProp o s).2.2 = s.2) ->
   (forall s, (hideOnEscapeProp o s).2.2 = s.2) ->
   forall s,
     (onKeyDown amb o s).2.2 = s.2 \/
     (onKeyDown amb o s).2.2 = (hide (state o) s.2).2) /\
  ((forall f, prop (options o) "hideOnHoverOutside" ≠ VFun f) ->
   forall s,
     (hideOnHoverOutside amb o s).2.2 = s.2 \/
     exists parentMenu,
       MenuContext amb = Some parentMenu /\
       (hideOnHoverOutside amb o s).2.2
         = (setActiveId parentMenu None s.2).2).
Proof.
  intros Hlist Hcard.
  split; [|split; [apply onKeyDown_world | apply hideOnHoverOutside_world]].
  rewrite useMenuProps_run.
  specialize (Hlist (menuListProps amb o) w).
  destruct (useMenuList amb (menuListProps amb o) w) as [[props|x] w1];
    cbn [snd] in *; [|done].
  rewrite Hcard. done.
Qed.

(** ** The initial focus target *)

Lemma findItemRef_first (st : MenuState) (i : string)
    (before after : list Item.t) (item : Item.t) :
  items st = (before ++ item :: after)%list ->
  Item.id item = i ->
  Forall (fun x => Item.id x ≠ i) before ->
  findItemRef st i = VRef (Item.ref item).
Proof.
  intros Hitems <- Hbefore. unfold findItemRef. rewrite Hitems.
  clear Hitems. induction Hbefore as [|x before Hx _ IH]; cbn [app List.find].
  - by rewrite String.eqb_refl.
  - apply String.eqb_neq in Hx. by rewrite Hx.
Qed.

Lemma findItemRef_none (st : MenuState) (i : string) :
  Forall (fun x => Item.id x ≠ i) (items st) ->
  findItemRef st i = VUndefined.
Proof.
  unfold findItemRef. intros Hall.
  induction Hall as [|x l Hx _ IH]; cbn [List.find]; [done|].
  apply String.eqb_neq in Hx. by rewrite Hx.
Qed.

(** The memoized value depends on the state through the five fields of its
    dependency list only. *)
Lemma initialFocusRef_deps (st st' : MenuState) :
  initialFocus st = initialFocus st' ->
  first st tt = first st' tt ->
  last st tt = last st' tt ->
  items st = items st' ->
  baseRef st = baseRef st' ->
  initialFocusRef st = initialFocusRef st'.
Proof.
  intros Hfocus Hfirst Hlast Hitems Hbase.
  unfold initialFocusRef, useMemo, refOfId, findItemRef.
  by rewrite Hfocus, Hfirst, Hlast, Hitems, Hbase.
Qed.

(** C10, amended: useMenu is deterministic in the props, the state object
    and the two contexts.  Two calls with equal options, equal state and
    equal parent menu and menu bar contexts return equal results, in
    whatever worlds they are made, when the results of the two hooks
    delegated to do not depend on the world: useMenu itself reads nothing
    else.  The initialFocusRef is the same for two states that agree on
    initialFocus, first(), last(), items and baseRef, and it is what
    useHovercard is given unless useMenuList's result sets one.  It is
    state.baseRef for "container" and when first() (for "first") or last()
    (for "last") returns no id or the empty one; the ref of the first item
    of state.items with the id returned, when there is one; and undefined
    when an id is returned that no item of state.items has. *)
Theorem useMenu_deterministic
    (amb amb' : Ambient) (o o' : MenuOptions) (w w' : World) :
  (forall a props v v',
     (useMenuList a props v).1 = (useMenuList a props v').1) ->
  (forall a props v v',
     (useHovercard a props v).1 = (useHovercard a props v').1) ->
  options o = options o' ->
  state o = state o' ->
  MenuContext amb = MenuContext amb' ->
  MenuBarContext amb = MenuBarContext amb' ->
  (useMenuProps amb o w).1 = (useMenuProps amb' o' w').1 /\
  (forall st : MenuState,
     initialFocus st = initialFocus (state o) ->
     first st tt = first (state o) tt ->
     last st tt = last (state o) tt ->
     items st = items (state o) ->
     baseRef st = baseRef (state o) ->
     initialFocusRef st = initialFocusRef (state o')) /\
  (forall props : gmap string Value,
     props !! "initialFocusRef" = None ->
     hovercardProps amb o props !! "initialFocusRef"
       = Some (initialFocusRef (state o)) /\
     hovercardProps amb' o' props !! "initialFocusRef"
       = Some (initialFocusRef (state o))) /\
  let st := state o in
  let chosen (id : option string) :=
    ((id = None \/ id = Some "") -> initialFocusRef st = VRef (baseRef st)) /\
    (forall i before item after,
       id = Some i -> i ≠ "" ->
       items st = (before ++ item :: after)%list ->
       Item.id item = i ->
       Forall (fun x => Item.id x ≠ i) before ->
       initialFocusRef st = VRef (Item.ref item)) /\
    (forall i,
       id = Some i -> i ≠ "" ->
       Forall (fun x => Item.id x ≠ i) (items st) ->
       initialFocusRef st = VUndefined) in
  match initialFocus st with
  | FocusContainer => initialFocusRef st = VRef (baseRef st)
  | FocusFirst => chosen (first st tt)
  | FocusLast => chosen (last st tt)
  end.
Proof.
  intros Hlist Hcard Hoptions Hstate Hmenu Hbar.
  destruct amb as [menu bar], amb' as [menu' bar'],
    o as [st opts], o' as [st' opts'].
  cbn [options state MenuContext MenuBarContext] in *. subst.
  split; [|split; [|split]].
  - rewrite !useMenuProps_run.
    set (amb := {| MenuContext := menu'; MenuBarContext := bar' |}).
    set (o := {| state := st'; options := opts' |}).
    specialize (Hlist amb (menuListProps amb o) w w').
    destruct (useMenuList amb (menuListProps amb o) w) as [[props|x] w1],
      (useMenuList amb (menuListProps amb o) w') as [[props'|x'] w1'];
      cbn [fst] in Hlist; try discriminate.
    + injection Hlist as <-. apply Hcard.
    + done.
  - intros st; apply initialFocusRef_deps.
  - intros props Hnone. unfold hovercardProps.
    rewrite !lookup_insert_ne by done.
    rewrite lookup_union_r by done.
    by rewrite lookup_insert_eq.
  - cbv zeta. unfold initialFocusRef, useMemo.
    destruct (initialFocus st'); [reflexivity| |].
    all: match goal with
         | |- context [refOfId _ ?id] => destruct id as [i|]
         end;
      cbn [refOfId]; repeat split.
    all: try (intros [[=]|[= ->]]; reflexivity).
    all: try (intros; reflexivity).
    all: try (intros; discriminate).
    all: try (intros j before item after [= <-] Hne Hitems Hid Hbefore;
              apply String.eqb_neq in Hne as ->; cbn [negb];
              by eapply findItemRef_first).
    all: intros j [= <-] Hne Hall;
      apply String.eqb_neq in Hne as ->; cbn [negb];
      by apply findItemRef_none.
Qed.

End MenuFacts.

(** * The properties on the concrete page *)

Section PageFacts.

#[local] Existing Instance pageHost.
#[local] Existing Instance pageImports.

(** Escape on a top-level menu: propagation stopped, menu closed. *)
Example escape_closes_top_level_menu :
  onKeyDown topLevel plainMenu (escape, openPage)
    = (Normal VUndefined, (stoppedEscape, closeMenu openPage)).
Proof. reflexivity. Qed.

(** Escape in a submenu: menu closed, the event goes on to the parents. *)
Example escape_in_submenu_propagates :
  onKeyDown inSubmenu plainMenu (escape, openPage)
    = (Normal VUndefined, (escape, closeMenu openPage)).
Proof. reflexivity. Qed.

(** A caller handler that prevents the default keeps the menu open. *)
Example prevented_escape_keeps_menu_open :
  onKeyDown topLevel guardedMenu (escape, openPage)
    = (Normal VUndefined, (preventedEscape, openPage)).
Proof. reflexivity. Qed.

(** Hovering outside a submenu clears the parent's active item. *)
Example hover_outside_submenu :
  hideOnHoverOutside inSubmenu plainMenu (mouseMove, openPage)
    = (Normal (VBool true), (mouseMove, activate None openPage)).
Proof. reflexivity. Qed.

Example hover_outside_menu_bar_menu :
  hideOnHoverOutside inMenuBar plainMenu (mouseMove, openPage)
    = (Normal (VBool true), (mouseMove, openPage)).
Proof. reflexivity. Qed.

Example hover_outside_top_level_menu :
  hideOnHoverOutside topLevel plainMenu (mouseMove, openPage)
    = (Normal (VBool false), (mouseMove, openPage)).
Proof. reflexivity. Qed.

(** With a hook that throws, useMenu throws that hook's exception. *)
Example useMenu_passes_on_delegate_exception :
  useMenuProps (imports := throwingImports) topLevel plainMenu openPage
    = (Throw "Invalid hook call", openPage).
Proof. reflexivity. Qed.

Example initialFocusRef_first_item :
  initialFocusRef (pageState FocusFirst editItems) = VRef 1
  /\ initialFocusRef (pageState FocusLast editItems) = VRef 2
  /\ initialFocusRef (pageState FocusContainer editItems) = VRef 10.
Proof. repeat split. Qed.

(** A submenu is never modal, whatever the caller asked for. *)
Example submenu_is_never_modal :
  match useMenuProps inSubmenu modalMenu openPage with
  | (Normal htmlProps, _) =>
      htmlProps !! "modal" = Some (VBool false) /\
      htmlProps !! "backdrop" = Some (VBool false) /\
      htmlProps !! "hideOnEscape" = Some (VBool false)
  | (Throw _, _) => False
  end.
Proof. repeat split. Qed.

Example top_level_menu_keeps_modal :
  match useMenuProps topLevel modalMenu openPage with
  | (Normal htmlProps, _) =>
      htmlProps !! "modal" = Some (VBool true) /\
      htmlProps !! "backdrop" = Some (VBool true) /\
      htmlProps !! "hideOnEscape" = Some (VBool true)
  | (Throw _, _) => False
  end.
Proof. repeat split. Qed.

(** C1, on the page: a menu whose onKeyDown prevents the default. *)
Lemma onKeyDown_calls_caller_first_witness :
  prop (options guardedMenu) "onKeyDown" = VFun preventDefault /\
  (forall s, useEventCallback (VFun preventDefault) s = preventDefault s) /\
  menuListProps topLevel guardedMenu !! "onKeyDown"
    = Some (VFun (onKeyDown topLevel guardedMenu)) /\
  exists internal : Callback,
    forall s,
      onKeyDown topLevel guardedMenu s =
        match preventDefault s with
        | (Normal _, s1) =>
            if defaultPrevented (fst s1) then (Normal VUndefined, s1)
            else internal s1
        | (Throw x, s1) => (Throw x, s1)
        end.
Proof.
  split; [reflexivity|]. split; [intros s; reflexivity|].
  apply (onKeyDown_calls_caller_first topLevel guardedMenu preventDefault);
    [reflexivity | intros s; reflexivity].
Defined.

(** C3, on the page: Escape on a top-level menu without options. *)
Lemma onKeyDown_escape_hides_witness :
  onKeyDownProp plainMenu (escape, openPage)
    = (Normal VUndefined, (escape, openPage)) /\
  defaultPrevented escape = false /\
  key escape = "Escape" /\
  hideOnEscapeProp plainMenu (escape, openPage)
    = (Normal (VBool true), (escape, openPage)) /\
  truthy (VBool true) = true /\
  (prop (options plainMenu) "hideOnEscape" = VUndefined ->
     hideOnEscapeProp plainMenu = useBooleanEventCallback (VBool true)) /\
  onKeyDown topLevel plainMenu (escape, openPage) =
    let event :=
      match MenuContext topLevel with
      | None => stopPropagationOf (fst (escape, openPage))
      | Some _ => fst (escape, openPage)
      end in
    match hide (state plainMenu) (snd (escape, openPage)) with
    | (Normal _, w) => (Normal VUndefined, (event, w))
    | (Throw x, w) => (Throw x, (event, w))
    end.
Proof.
  do 5 (split; [reflexivity|]).
  apply (onKeyDown_escape_hides topLevel plainMenu (escape, openPage)
           (escape, openPage) (escape, openPage) VUndefined (VBool true));
    reflexivity.
Defined.

(** C4, on the page: a modal top-level menu with a backdrop. *)
Lemma useHovercard_submenu_options_witness :
  let props := delete "state" (menuListProps topLevel modalMenu) in
  let args := hovercardProps topLevel modalMenu props in
  useMenuList topLevel (menuListProps topLevel modalMenu) openPage
    = (Normal props, openPage) /\
  prop props "modal" = prop (options modalMenu) "modal" /\
  prop props "backdrop" = prop (options modalMenu) "backdrop" /\
  useMenuProps topLevel modalMenu openPage
    = useHovercard topLevel args openPage /\
  (is_Some (MenuContext topLevel) ->
     args !! "modal" = Some (VBool false) /\
     args !! "backdrop" = Some (VBool false) /\
     args !! "hideOnEscape" = Some (VBool false)) /\
  (MenuContext topLevel = None ->
     args !! "modal" = Some (prop (options modalMenu) "modal") /\
     args !! "backdrop" = Some (prop (options modalMenu) "backdrop")).
Proof.
  do 3 (split; [reflexivity|]).
  apply (useHovercard_submenu_options topLevel modalMenu openPage openPage
           (delete "state" (menuListProps topLevel modalMenu)));
    reflexivity.
Defined.

(** C9, on the page: the delegates of the page change nothing. *)
Lemma useMenu_render_mutates_nothing_witness :
  (forall props w0, (useMenuList inSubmenu props w0).2 = w0) /\
  (forall props w0, (useHovercard inSubmenu props w0).2 = w0) /\
  (useMenuProps inSubmenu plainMenu openPage).2 = openPage /\
  ((forall s, (onKeyDownProp plainMenu s).2.2 = s.2) ->
   (forall s, (hideOnEscapeProp plainMenu s).2.2 = s.2) ->
   forall s,
     (onKeyDown inSubmenu plainMenu s).2.2 = s.2 \/
     (onKeyDown inSubmenu plainMenu s).2.2 = (hide (state plainMenu) s.2).2) /\
  ((forall f, prop (options plainMenu) "hideOnHoverOutside" ≠ VFun f) ->
   forall s,
     (hideOnHoverOutside inSubmenu plainMenu s).2.2 = s.2 \/
     exists parentMenu,
       MenuContext inSubmenu = Some parentMenu /\
       (hideOnHoverOutside inSubmenu plainMenu s).2.2
         = (setActiveId parentMenu None s.2).2).
Proof.
  do 2 (split; [intros props w0; reflexivity|]).
  apply (useMenu_render_mutates_nothing inSubmenu plainMenu openPage);
    intros props w0; reflexivity.
Defined.

(** C10, on the page: the same menu rendered while it is open and after it
    was closed. *)
Lemma useMenu_deterministic_witness :
  (forall a props v v',
     (useMenuList a props v).1 = (useMenuList a props v').1) /\
  (forall a props v v',
     (useHovercard a props v).1 = (useHovercard a props v').1) /\
  openPage ≠ closeMenu openPage /\
  (useMenuProps topLevel plainMenu openPage).1
    = (useMenuProps topLevel plainMenu (closeMenu openPage)).1 /\
  (forall st : MenuState,
     initialFocus st = initialFocus (state plainMenu) ->
     first st tt = first (state plainMenu) tt ->
     last st tt = last (state plainMenu) tt ->
     items st = items (state plainMenu) ->
     baseRef st = baseRef (state plainMenu) ->
     initialFocusRef st = initialFocusRef (state plainMenu)) /\
  (forall props : gmap string Value,
     props !! "initialFocusRef" = None ->
     hovercardProps topLevel plainMenu props !! "initialFocusRef"
       = Some (initialFocusRef (state plainMenu)) /\
     hovercardProps topLevel plainMenu props !! "initialFocusRef"
       = Some (initialFocusRef (state plainMenu))) /\
  let st := state plainMenu in
  let chosen (id : option string) :=
    ((id = None \/ id = Some "") -> initialFocusRef st = VRef (baseRef st)) /\
    (forall i before item after,
       id = Some i -> i ≠ "" ->
       items st = (before ++ item :: after)%list ->
       Item.id item = i ->
       Forall (fun x => Item.id x ≠ i) before ->
       initialFocusRef st = VRef (Item.ref item)) /\
    (forall i,
       id = Some i -> i ≠ "" ->
       Forall (fun x => Item.id x ≠ i) (items st) ->
       initialFocusRef st = VUndefined) in
  match initialFocus st with
  | FocusContainer => initialFocusRef st = VRef (baseRef st)
  | FocusFirst => chosen (first st tt)
  | FocusLast => chosen (last st tt)
  end.
Proof.
  do 2 (split; [intros a props v v'; reflexivity|]).
  split; [discriminate|].
  apply (useMenu_deterministic topLevel topLevel plainMenu plainMenu
           openPage (closeMenu openPage));
    first [reflexivity | intros a props v v'; reflexivity].
Defined.

(** C10 as stated fails: with initialFocus "first", an id from first() and
    no item of that id in items, the initial focus target is undefined, not
    state.baseRef. *)
Lemma initialFocusRef_without_match_is_undefined :
  initialFocus staleState = FocusFirst /\
  first staleState tt = Some "undo" /\
  List.find (fun item => String.eqb (Item.id item) "undo") (items staleState)
    = None /\
  initialFocusRef staleState = VUndefined /\
  initialFocusRef staleState ≠ VRef (baseRef staleState).
Proof. repeat split; discriminate. Qed.

End PageFacts.

(** * More of the hook *)

Section MenuMore.

Context {host : Host} {imports : Imports}.

(** ** The keydown handler, the other ways through it *)

(** X1: a keydown of a key other than Escape is left to the caller's
    handler: useMenu's handler returns in the state that handler left,
    without evaluating hideOnEscape, stopping the propagation or hiding the
    menu. *)
Theorem onKeyDown_other_key_ignored
    (amb : Ambient) (o : MenuOptions) (s s1 : HState) (v : Value) :
  onKeyDownProp o s = (Normal v, s1) ->
  key (fst s1) ≠ "Escape" ->
  onKeyDown amb o s = (Normal VUndefined, s1).
Proof.
  intros Hcaller Hkey. rewrite onKeyDown_run, Hcaller.
  apply String.eqb_neq in Hkey as ->.
  by destruct (defaultPrevented s1.1).
Qed.

(** X2: with hideOnEscape false, no key hides the menu: whatever the event,
    the handler returns in the state the caller's handler left, in a submenu
    as in a top-level menu.  useBooleanEventCallback is assumed to answer a
    boolean option with that boolean. *)
Theorem onKeyDown_hideOnEscape_false
    (amb : Ambient) (o : MenuOptions) (s s1 : HState) (v : Value) :
  (forall b s, useBooleanEventCallback (VBool b) s = (Normal (VBool b), s)) ->
  prop (options o) "hideOnEscape" = VBool false ->
  onKeyDownProp o s = (Normal v, s1) ->
  onKeyDown amb o s = (Normal VUndefined, s1).
Proof.
  intros Hbool Hoption Hcaller. rewrite onKeyDown_run, Hcaller.
  unfold hideOnEscapeProp, hideOnEscapeOf. rewrite Hoption. cbn [withDefault].
  rewrite Hbool. cbn [truthy negb].
  destruct (defaultPrevented s1.1); [done|].
  by destruct (String.eqb (key s1.1) "Escape").
Qed.

(** X3: on an Escape keydown that is not default-prevented, an exception of
    the hideOnEscape callback ends the handler before it stops the
    propagation or hides the menu; an exception of state.hide() comes after
    the propagation was stopped (when there is no parent menu). *)
Theorem onKeyDown_escape_exceptions
    (amb : Ambient) (o : MenuOptions) (s s1 : HState) (v : Value) :
  onKeyDownProp o s = (Normal v, s1) ->
  defaultPrevented (fst s1) = false ->
  key (fst s1) = "Escape" ->
  (forall x s2,
     hideOnEscapeProp o s1 = (Throw x, s2) ->
     onKeyDown amb o s = (Throw x, s2)) /\
  (forall h s2 x w,
     hideOnEscapeProp o s1 = (Normal h, s2) ->
     truthy h = true ->
     hide (state o) (snd s2) = (Throw x, w) ->
     onKeyDown amb o s =
       (Throw x,
        (if hasParentMenu amb then fst s2 else stopPropagationOf (fst s2),
         w))).
Proof.
  intros Hcaller Hdefault Hkey.
  split.
  - intros x s2 Hoption.
    by rewrite onKeyDown_run, Hcaller, Hdefault, Hkey, Hoption.
  - intros h s2 x w Hoption Htrue Hhide.
    rewrite onKeyDown_run, Hcaller, Hdefault, Hkey, Hoption, Htrue.
    cbn [negb String.eqb Ascii.eqb Bool.eqb].
    destruct (hasParentMenu amb); cbn [negb fst snd]; by rewrite Hhide.
Qed.

(** X4: the handler never prevents the default and never changes the key.
    When the caller's two callbacks leave the event as it is, the event
    after the handler is the event it was given, or that event with its
    propagation stopped; the latter only without a parent menu, on an Escape
    that was not default-prevented. *)
Theorem onKeyDown_event
    (amb : Ambient) (o : MenuOptions) (s : HState) :
  (forall s, (onKeyDownProp o s).2.1 = s.1) ->
  (forall s, (hideOnEscapeProp o s).2.1 = s.1) ->
  (onKeyDown amb o s).2.1 = s.1 \/
  ((onKeyDown amb o s).2.1 = stopPropagationOf s.1 /\
   MenuContext amb = None /\
   key s.1 = "Escape" /\
   defaultPrevented s.1 = false).
Proof.
  intros Hcaller Hoption. rewrite onKeyDown_run.
  specialize (Hcaller s).
  destruct (onKeyDownProp o s) as [[v|x] s1]; cbn [fst snd] in *; [|by left].
  destruct (defaultPrevented s1.1) eqn:Hdefault; [by left|].
  destruct (String.eqb (key s1.1) "Escape") eqn:Hkey; [|by left].
  apply String.eqb_eq in Hkey.
  specialize (Hoption s1).
  destruct (hideOnEscapeProp o s1) as [[h|x] s2]; cbn [fst snd] in *;
    [|left; congruence].
  destruct (negb (truthy h)); [left; cbn [fst snd]; congruence|].
  unfold hasParentMenu, useStore.
  destruct (MenuContext amb) as [parentMenu|]; cbn [toBoolean negb fst snd].
  - left. destruct (hide (state o) s2.2) as [[u|x] w]; cbn [fst snd];
      congruence.
  - right. rewrite <- Hcaller, <- Hoption. repeat split; try congruence.
    by destruct (hide (state o) s2.2) as [[u|x] w].
Qed.

(** X5: an Escape keydown that reaches the menu already default-prevented
    (by a handler further down) is ignored also when the caller gave no
    onKeyDown: the handler returns in the state it was called in.
    useEventCallback is assumed to do nothing for a missing callback. *)
Theorem onKeyDown_prevented_event_ignored
    (amb : Ambient) (o : MenuOptions) (s : HState) :
  (forall s, useEventCallback VUndefined s = (Normal VUndefined, s)) ->
  prop (options o) "onKeyDown" = VUndefined ->
  defaultPrevented (fst s) = true ->
  onKeyDown amb o s = (Normal VUndefined, s).
Proof.
  intros Hnone Hprop Hdefault.
  assert (Hrest : onKeyDownProp o = useEventCallback VUndefined).
  { unfold onKeyDownProp, prop in *.
    rewrite restProps_lookup by done. by rewrite Hprop. }
  by rewrite onKeyDown_run, Hrest, Hnone, Hdefault.
Qed.

(** ** The objects handed to the delegates *)

(** X6: useMenuList gets the caller's properties without the options useMenu
    takes for itself (hideOnEscape, autoFocusOnShow, hideOnHoverOutside),
    and always with an onKeyDown and a state: its keys are exactly those.
    A raw onKeyDown of the caller never reaches it, only the merged
    handler. *)
Theorem menuListProps_keys (amb : Ambient) (o : MenuOptions) :
  dom (menuListProps amb o) =
    (dom (options o)
       ∖ {[ "hideOnEscape"; "autoFocusOnShow"; "hideOnHoverOutside" ]})
    ∪ {[ "onKeyDown"; "state" ]} /\
  forall v,
    menuListProps amb o !! "onKeyDown" = Some v -> v = VFun (onKeyDown amb o).
Proof.
  split.
  - unfold menuListProps, restProps.
    rewrite dom_union_L, dom_insert_L, !dom_delete_L, dom_singleton_L.
    apply set_eq. intros k.
    rewrite !elem_of_union, !elem_of_difference, !elem_of_union,
      !elem_of_singleton.
    destruct (decide (k = "state")) as [->|Hstate]; [intuition done|].
    intuition congruence.
  - intros v. rewrite menuListProps_onKeyDown. congruence.
Qed.

Lemma hovercardProps_default (amb : Ambient) (o : MenuOptions)
    (props : gmap string Value) (k : string) :
  k ≠ "hideOnEscape" -> k ≠ "backdrop" -> k ≠ "modal" ->
  k ≠ "hideOnHoverOutside" ->
  hovercardProps amb o props !! k =
    match props !! k with
    | Some v => Some v
    | None =>
        (<["initialFocusRef" := initialFocusRef (state o)]>
           (<["autoFocusOnShow" := autoFocusOnShowArg o]>
              ({[ "state" := VState (state o) ]} : gmap string Value))) !! k
    end.
Proof.
  intros. unfold hovercardProps.
  rewrite !lookup_insert_ne by done.
  destruct (props !! k) as [v|] eqn:Hk.
  - by apply lookup_union_Some_l.
  - by rewrite lookup_union_r.
Qed.

(** X7: the order of the spread decides who wins.  state, autoFocusOnShow
    and initialFocusRef stand before the props useMenuList returned, so a
    property of that name in those props replaces what useMenu computed;
    hideOnEscape and hideOnHoverOutside stand after them and are useMenu's
    whatever those props hold, as modal and backdrop are in a submenu. *)
Theorem hovercardProps_spread_order
    (amb : Ambient) (o : MenuOptions) (props props' : gmap string Value) :
  hovercardProps amb o props !! "state"
    = Some (default (VState (state o)) (props !! "state")) /\
  hovercardProps amb o props !! "autoFocusOnShow"
    = Some (default (autoFocusOnShowArg o) (props !! "autoFocusOnShow")) /\
  hovercardProps amb o props !! "initialFocusRef"
    = Some (default (initialFocusRef (state o))
              (props !! "initialFocusRef")) /\
  hovercardProps amb o props !! "hideOnEscape"
    = hovercardProps amb o props' !! "hideOnEscape" /\
  hovercardProps amb o props !! "hideOnHoverOutside"
    = hovercardProps amb o props' !! "hideOnHoverOutside" /\
  (is_Some (MenuContext amb) ->
     hovercardProps amb o props !! "modal"
       = hovercardProps amb o props' !! "modal" /\
     hovercardProps amb o props !! "backdrop"
       = hovercardProps amb o props' !! "backdrop").
Proof.
  rewrite !hovercardProps_default by done.
  rewrite !hovercardProps_hideOnEscape, !hovercardProps_hideOnHoverOutside,
    !hovercardProps_modal, !hovercardProps_backdrop.
  split; [|split; [|split; [|split; [|split]]]]; try reflexivity.
  - destruct (props !! "state"); [done|].
    by rewrite !lookup_insert_ne, lookup_singleton_eq.
  - destruct (props !! "autoFocusOnShow"); [done|].
    by rewrite lookup_insert_ne, lookup_insert_eq.
  - destruct (props !! "initialFocusRef"); [done|].
    by rewrite lookup_insert_eq.
  - unfold hasParentMenu, useStore. by intros [parentMenu ->].
Qed.

(** X8: useHovercard always gets a state, an autoFocusOnShow, an
    initialFocusRef, a hideOnHoverOutside, a modal, a backdrop and a
    hideOnEscape, and besides them exactly the properties useMenuList
    returned. *)
Theorem hovercardProps_keys
    (amb : Ambient) (o : MenuOptions) (props : gmap string Value) :
  dom (hovercardProps amb o props) =
    dom props
    ∪ {[ "state"; "autoFocusOnShow"; "initialFocusRef";
         "hideOnHoverOutside"; "modal"; "backdrop"; "hideOnEscape" ]}.
Proof.
  unfold hovercardProps.
  rewrite !dom_insert_L, dom_union_L, !dom_insert_L, dom_singleton_L.
  apply set_eq. intros k.
  rewrite !elem_of_union, !elem_of_singleton. intuition done.
Qed.

(** X9: when useMenuList's result sets no autoFocusOnShow, the one given to
    useHovercard holds only if both the state's and the caller's (true when
    omitted) hold: it is false when the state's is false, whatever the
    caller gave, and the state's own when the caller gave none. *)
Theorem autoFocusOnShow_needs_both
    (amb : Ambient) (o : MenuOptions) (props : gmap string Value) :
  props !! "autoFocusOnShow" = None ->
  let given := prop (hovercardProps amb o props) "autoFocusOnShow" in
  truthy given =
    autoFocusOnShow (state o)
    && truthy (withDefault (prop (options o) "autoFocusOnShow") (VBool true))
  /\ (autoFocusOnShow (state o) = false -> given = VBool false)
  /\ (prop (options o) "autoFocusOnShow" = VUndefined ->
      given = VBool (autoFocusOnShow (state o))).
Proof.
  intros Hnone given.
  assert (Hgiven : given = autoFocusOnShowArg o).
  { subst given. unfold prop.
    rewrite hovercardProps_default, Hnone by done.
    by rewrite lookup_insert_ne, lookup_insert_eq. }
  rewrite Hgiven. clear Hgiven given.
  unfold autoFocusOnShowArg, autoFocusOnShowOf.
  destruct (autoFocusOnShow (state o)); repeat split; try done.
  by intros ->.
Qed.

(** ** The initial focus target, as a value *)

Lemma findItemRef_cases (st : MenuState) (i : string) :
  (findItemRef st i = VUndefined /\
   Forall (fun x => Item.id x ≠ i) (items st)) \/
  exists item,
    item ∈ items st /\ Item.id item = i /\
    findItemRef st i = VRef (Item.ref item).
Proof.
  unfold findItemRef.
  induction (items st) as [|x l IH]; cbn [List.find].
  - left. by split.
  - destruct (String.eqb (Item.id x) i) eqn:Hx.
    + right. exists x. apply String.eqb_eq in Hx.
      split; [apply list_elem_of_here | by split].
    + apply String.eqb_neq in Hx.
      destruct IH as [[Hnone Hall]|(item & Hin & Hid & Href)].
      * left. split; [done | by constructor].
      * right. exists item. split; [by apply list_elem_of_further | by split].
Qed.

(** X10: the initial focus target is never anything but undefined,
    state.baseRef or the ref of an item of state.items; it is undefined only
    when initialFocus is "first" or "last", and state.baseRef always when it
    is "container". *)
Theorem initialFocusRef_range (st : MenuState) :
  (initialFocusRef st = VUndefined /\ initialFocus st ≠ FocusContainer) \/
  initialFocusRef st = VRef (baseRef st) \/
  exists item, item ∈ items st /\ initialFocusRef st = VRef (Item.ref item).
Proof.
  unfold initialFocusRef, useMemo, refOfId.
  destruct (initialFocus st); [by right; left| |].
  all: match goal with
       | |- context [match ?id with Some _ => _ | None => _ end] =>
           destruct id as [i|]; [|by right; left]
       end.
  all: destruct (negb (String.eqb i "")); [|by right; left].
  all: destruct (findItemRef_cases st i)
         as [[-> _]|(item & Hin & _ & ->)];
    [left; by split | right; right; by exists item].
Qed.

(** X11: when the id first() returns (for "first"; last() for "last") is
    not empty and is the id of an item of state.items, the initial focus
    target is the ref of an item of state.items of that id, and so neither
    undefined nor the fall back. *)
Theorem initialFocusRef_known_id (st : MenuState) (i : string) :
  (initialFocus st = FocusFirst /\ first st tt = Some i) \/
  (initialFocus st = FocusLast /\ last st tt = Some i) ->
  i ≠ "" ->
  (exists item, item ∈ items st /\ Item.id item = i) ->
  exists item,
    item ∈ items st /\ Item.id item = i /\
    initialFocusRef st = VRef (Item.ref item).
Proof.
  intros Hfocus Hne (known & Hin & Hid).
  assert (Hchosen : initialFocusRef st = findItemRef st i).
  { unfold initialFocusRef, useMemo.
    apply String.eqb_neq in Hne.
    destruct Hfocus as [[-> ->]|[-> ->]]; cbn [refOfId]; by rewrite Hne. }
  rewrite Hchosen.
  destruct (findItemRef_cases st i) as [[_ Hall]|Hfound]; [|done].
  rewrite Forall_forall in Hall. by destruct (Hall known Hin).
Qed.

(** ** Hovering outside, the event *)

(** X12: unless the caller gave a function, the hideOnHoverOutside callback
    leaves the event it is given untouched, and with no value of the caller
    it answers with a boolean whenever it returns. *)
Theorem hideOnHoverOutside_event
    (amb : Ambient) (o : MenuOptions) (s : HState) :
  (forall f, prop (options o) "hideOnHoverOutside" ≠ VFun f) ->
  (hideOnHoverOutside amb o s).2.1 = s.1 /\
  (notNullish (prop (options o) "hideOnHoverOutside") = false ->
   forall r,
     (hideOnHoverOutside amb o s).1 = Normal r -> exists b, r = VBool b).
Proof.
  intros Hgiven.
  unfold hideOnHoverOutside, hideOnHoverOutsideOf, useStore.
  destruct (prop (options o) "hideOnHoverOutside") as [| |b|str|r|st|g];
    cbn [notNullish]; try (split; [reflexivity | discriminate]);
    try (by destruct (Hgiven g)).
  all: destruct (MenuContext amb) as [parentMenu|];
    [ rewrite bind_run, liftW_run; cbn [fst snd];
      destruct (setActiveId parentMenu None s.2) as [[u|x] w'];
      cbn [ret fst snd]; (split; [reflexivity|]); intros _ r' [= <-]; eauto
    | destruct (negb (parentIsMenuBar amb));
      [ cbn [ret fst snd]; split; [reflexivity|];
        intros _ r' [= <-]; eauto |];
      rewrite bind_run; unfold getWorld; cbn [fst snd];
      destruct (current (disclosureRef (state o)) s.2) as [d|];
      [ destruct (hasFocusWithin d s.2) |];
      cbn [ret fst snd]; (split; [reflexivity|]); intros _ r' [= <-]; eauto ].
Qed.

(** ** Escape in nested menus *)

(** React hands a bubbling event to the handler of the enclosing element
    after the inner one, unless its propagation was stopped. *)
Definition bubble (inner outer : Callback) : Callback :=
  inner ;;;
  event <- getEvent ;;
  if propagationStopped event then ret VUndefined else outer.

(** X13: Escape in a submenu closes all the menus.  With no caller handlers
    and hideOnEscape left at its default, an Escape keydown handled by a
    submenu and then, bubbling, by its top-level parent hides the submenu
    first, reaches the parent because the submenu did not stop it, hides
    the parent, and goes no further.  The two helper hooks are assumed to do
    nothing for a missing callback and to answer a boolean option with that
    boolean. *)
Theorem escape_closes_submenu_and_parent
    (sub top : Ambient) (child parent : MenuOptions)
    (e : Event) (w w1 w2 : World) :
  (forall s, useEventCallback VUndefined s = (Normal VUndefined, s)) ->
  (forall b s, useBooleanEventCallback (VBool b) s = (Normal (VBool b), s)) ->
  is_Some (MenuContext sub) ->
  MenuContext top = None ->
  prop (options child) "onKeyDown" = VUndefined ->
  prop (options parent) "onKeyDown" = VUndefined ->
  prop (options child) "hideOnEscape" = VUndefined ->
  prop (options parent) "hideOnEscape" = VUndefined ->
  key e = "Escape" ->
  defaultPrevented e = false ->
  propagationStopped e = false ->
  hide (state child) w = (Normal tt, w1) ->
  hide (state parent) w1 = (Normal tt, w2) ->
  onKeyDown sub child (e, w) = (Normal VUndefined, (e, w1)) /\
  bubble (onKeyDown sub child) (onKeyDown top parent) (e, w)
    = (Normal VUndefined, (stopPropagationOf e, w2)).
Proof.
  intros Hnone Hbool [parentMenu Hsub] Htop Hkc Hkp Hec Hep
    Hkey Hdefault Hstopped Hchild Hparent.
  assert (Hcaller : forall o, prop (options o) "onKeyDown" = VUndefined ->
            onKeyDownProp o = useEventCallback VUndefined).
  { intros o Ho. unfold onKeyDownProp, prop in *.
    rewrite restProps_lookup by done. by rewrite Ho. }
  assert (Hoption : forall o, prop (options o) "hideOnEscape" = VUndefined ->
            hideOnEscapeProp o = useBooleanEventCallback (VBool true)).
  { intros o Ho. unfold hideOnEscapeProp, hideOnEscapeOf. by rewrite Ho. }
  assert (Hinner :
    onKeyDown sub child (e, w) = (Normal VUndefined, (e, w1))).
  { rewrite onKeyDown_run, (Hcaller child Hkc), Hnone.
    cbn [fst snd]. rewrite Hdefault, Hkey, (Hoption child Hec), Hbool.
    cbn [truthy negb String.eqb Ascii.eqb Bool.eqb fst snd].
    unfold hasParentMenu, useStore. rewrite Hsub.
    cbn [toBoolean negb fst snd]. by rewrite Hchild. }
  split; [done|].
  unfold bubble. rewrite bind_run, Hinner, bind_run.
  unfold getEvent at 1. cbn [fst snd]. rewrite Hstopped.
  rewrite onKeyDown_run, (Hcaller parent Hkp), Hnone.
  cbn [fst snd]. rewrite Hdefault, Hkey, (Hoption parent Hep), Hbool.
  cbn [truthy negb String.eqb Ascii.eqb Bool.eqb fst snd].
  unfold hasParentMenu, useStore. rewrite Htop.
  cbn [toBoolean negb fst snd]. by rewrite Hparent.
Qed.

End MenuMore.

(** * More of the hook, on the concrete page *)

Section PageMore.

#[local] Existing Instance pageHost.
#[local] Existing Instance pageImports.

Definition tabKey : Event :=
  {| key := "Tab"; defaultPrevented := false; propagationStopped := false |}.

(** A menu that Escape does not close. *)
Definition lockedMenu : MenuOptions :=
  {| state := pageState FocusFirst editItems;
     options := {[ "hideOnEscape" := VBool false ]} |}.

(** A menu whose store throws on hide. *)
Definition brokenMenu : MenuOptions :=
  {| state :=
       {| hide := fun w => (Throw "store is gone", w);
          setActiveId := fun id w => (Normal tt, activate id w);
          initialFocus := FocusContainer;
          first := fun _ => None;
          last := fun _ => None;
          items := [];
          baseRef := 10;
          disclosureRef := 11;
          autoFocusOnShow := false |};
     options := {[ "autoFocusOnShow" := VBool true ]} |}.

(** A menu whose hideOnEscape callback throws. *)
Definition throwingOptionMenu : MenuOptions :=
  {| state := pageState FocusFirst editItems;
     options :=
       {[ "hideOnEscape" := VFun (fun s => (Throw "not now", s)) ]} |}.

Example locked_menu_stays_open :
  onKeyDown topLevel lockedMenu (escape, openPage)
    = (Normal VUndefined, (escape, openPage)).
Proof. reflexivity. Qed.

Example hide_exception_after_stopPropagation :
  onKeyDown topLevel brokenMenu (escape, openPage)
    = (Throw "store is gone", (stoppedEscape, openPage)).
Proof. reflexivity. Qed.

Example option_exception_before_stopPropagation :
  onKeyDown topLevel throwingOptionMenu (escape, openPage)
    = (Throw "not now", (escape, openPage)).
Proof. reflexivity. Qed.

(** X1, on the page: Tab on a top-level menu. *)
Lemma onKeyDown_other_key_ignored_witness :
  onKeyDownProp plainMenu (tabKey, openPage)
    = (Normal VUndefined, (tabKey, openPage)) /\
  key tabKey ≠ "Escape" /\
  onKeyDown topLevel plainMenu (tabKey, openPage)
    = (Normal VUndefined, (tabKey, openPage)).
Proof.
  split; [reflexivity|]. split; [discriminate|].
  apply (onKeyDown_other_key_ignored topLevel plainMenu (tabKey, openPage)
           (tabKey, openPage) VUndefined);
    [reflexivity | discriminate].
Defined.

(** X2, on the page: Escape on a menu with hideOnEscape false. *)
Lemma onKeyDown_hideOnEscape_false_witness :
  (forall b s, useBooleanEventCallback (VBool b) s = (Normal (VBool b), s)) /\
  prop (options lockedMenu) "hideOnEscape" = VBool false /\
  onKeyDownProp lockedMenu (escape, openPage)
    = (Normal VUndefined, (escape, openPage)) /\
  onKeyDown topLevel lockedMenu (escape, openPage)
    = (Normal VUndefined, (escape, openPage)).
Proof.
  split; [intros b s; reflexivity|]. do 2 (split; [reflexivity|]).
  apply (onKeyDown_hideOnEscape_false topLevel lockedMenu (escape, openPage)
           (escape, openPage) VUndefined);
    [intros b s; reflexivity | reflexivity | reflexivity].
Defined.

(** X3, on the page: Escape on a menu whose store throws on hide. *)
Lemma onKeyDown_escape_exceptions_witness :
  onKeyDownProp brokenMenu (escape, openPage)
    = (Normal VUndefined, (escape, openPage)) /\
  defaultPrevented escape = false /\
  key escape = "Escape" /\
  (forall x s2,
     hideOnEscapeProp brokenMenu (escape, openPage) = (Throw x, s2) ->
     onKeyDown topLevel brokenMenu (escape, openPage) = (Throw x, s2)) /\
  (forall h s2 x w,
     hideOnEscapeProp brokenMenu (escape, openPage) = (Normal h, s2) ->
     truthy h = true ->
     hide (state brokenMenu) (snd s2) = (Throw x, w) ->
     onKeyDown topLevel brokenMenu (escape, openPage) =
       (Throw x,
        (if hasParentMenu topLevel then fst s2
         else stopPropagationOf (fst s2),
         w))).
Proof.
  do 3 (split; [reflexivity|]).
  apply (onKeyDown_escape_exceptions topLevel brokenMenu (escape, openPage)
           (escape, openPage) VUndefined);
    reflexivity.
Defined.

(** X4, on the page: Escape on a top-level menu without options. *)
Lemma onKeyDown_event_witness :
  (forall s, (onKeyDownProp plainMenu s).2.1 = s.1) /\
  (forall s, (hideOnEscapeProp plainMenu s).2.1 = s.1) /\
  ((onKeyDown topLevel plainMenu (escape, openPage)).2.1 = escape \/
   ((onKeyDown topLevel plainMenu (escape, openPage)).2.1
      = stopPropagationOf escape /\
    MenuContext topLevel = None /\
    key escape = "Escape" /\
    defaultPrevented escape = false)).
Proof.
  do 2 (split; [intros s; reflexivity|]).
  apply (onKeyDown_event topLevel plainMenu (escape, openPage));
    intros s; reflexivity.
Defined.

(** X5, on the page: an Escape that was default-prevented further down. *)
Lemma onKeyDown_prevented_event_ignored_witness :
  (forall s, useEventCallback VUndefined s = (Normal VUndefined, s)) /\
  prop (options plainMenu) "onKeyDown" = VUndefined /\
  defaultPrevented preventedEscape = true /\
  onKeyDown topLevel plainMenu (preventedEscape, openPage)
    = (Normal VUndefined, (preventedEscape, openPage)).
Proof.
  split; [intros s; reflexivity|]. do 2 (split; [reflexivity|]).
  apply (onKeyDown_prevented_event_ignored topLevel plainMenu
           (preventedEscape, openPage));
    [intros s; reflexivity | reflexivity | reflexivity].
Defined.

(** X9, on the page: the caller asks for autoFocusOnShow, the state says
    no. *)
Lemma autoFocusOnShow_needs_both_witness :
  let props := delete "state" (menuListProps topLevel brokenMenu) in
  let given :=
    prop (hovercardProps topLevel brokenMenu props) "autoFocusOnShow" in
  props !! "autoFocusOnShow" = None /\
  truthy given =
    autoFocusOnShow (state brokenMenu)
    && truthy (withDefault (prop (options brokenMenu) "autoFocusOnShow")
                 (VBool true))
  /\ (autoFocusOnShow (state brokenMenu) = false -> given = VBool false)
  /\ (prop (options brokenMenu) "autoFocusOnShow" = VUndefined ->
      given = VBool (autoFocusOnShow (state brokenMenu))).
Proof.
  split; [reflexivity|].
  apply (autoFocusOnShow_needs_both topLevel brokenMenu
           (delete "state" (menuListProps topLevel brokenMenu)));
    reflexivity.
Defined.

(** X11, on the page: the first item of the edit menu. *)
Lemma initialFocusRef_known_id_witness :
  let st := pageState FocusFirst editItems in
  ((initialFocus st = FocusFirst /\ first st tt = Some "undo") \/
   (initialFocus st = FocusLast /\ last st tt = Some "undo")) /\
  "undo" ≠ "" /\
  (exists item, item ∈ items st /\ Item.id item = "undo") /\
  exists item,
    item ∈ items st /\ Item.id item = "undo" /\
    initialFocusRef st = VRef (Item.ref item).
Proof.
  split; [left; split; reflexivity|]. split; [discriminate|].
  split;
    [exists {| Item.id := "undo"; Item.ref := 1 |};
     split; [apply list_elem_of_here | reflexivity]|].
  apply (initialFocusRef_known_id (pageState FocusFirst editItems) "undo");
    [ left; split; reflexivity
    | discriminate
    | exists {| Item.id := "undo"; Item.ref := 1 |};
      split; [apply list_elem_of_here | reflexivity] ].
Defined.

(** X12, on the page: hovering outside a submenu. *)
Lemma hideOnHoverOutside_event_witness :
  (forall f, prop (options plainMenu) "hideOnHoverOutside" ≠ VFun f) /\
  (hideOnHoverOutside inSubmenu plainMenu (mouseMove, openPage)).2.1
    = mouseMove /\
  (notNullish (prop (options plainMenu) "hideOnHoverOutside") = false ->
   forall r,
     (hideOnHoverOutside inSubmenu plainMenu (mouseMove, openPage)).1
       = Normal r ->
     exists b, r = VBool b).
Proof.
  split; [intros f; discriminate|].
  apply (hideOnHoverOutside_event inSubmenu plainMenu (mouseMove, openPage)).
  intros f; discriminate.
Defined.

(** X13, on the page: Escape in a submenu of a top-level menu. *)
Lemma escape_closes_submenu_and_parent_witness :
  (forall s, useEventCallback VUndefined s = (Normal VUndefined, s)) /\
  (forall b s, useBooleanEventCallback (VBool b) s = (Normal (VBool b), s)) /\
  is_Some (MenuContext inSubmenu) /\
  MenuContext topLevel = None /\
  prop (options plainMenu) "onKeyDown" = VUndefined /\
  prop (options plainMenu) "hideOnEscape" = VUndefined /\
  key escape = "Escape" /\
  defaultPrevented escape = false /\
  propagationStopped escape = false /\
  hide (state plainMenu) openPage = (Normal tt, closeMenu openPage) /\
  hide (state plainMenu) (closeMenu openPage)
    = (Normal tt, closeMenu openPage) /\
  onKeyDown inSubmenu plainMenu (escape, openPage)
    = (Normal VUndefined, (escape, closeMenu openPage)) /\
  bubble (onKeyDown inSubmenu plainMenu) (onKeyDown topLevel plainMenu)
    (escape, openPage)
    = (Normal VUndefined, (stopPropagationOf escape, closeMenu openPage)).
Proof.
  split; [intros s; reflexivity|]. split; [intros b s; reflexivity|].
  split; [eexists; reflexivity|]. do 8 (split; [reflexivity|]).
  apply (escape_closes_submenu_and_parent inSubmenu topLevel
           plainMenu plainMenu escape openPage
           (closeMenu openPage) (closeMenu openPage));
    first [reflexivity | eexists; reflexivity].
Defined.

End PageMore.
